(** * fabric-cli: the [import] command's flow validator and dispatcher

    Shallow embedding of
    - [fabric_cli/parsers/fab_parser_validators.py] ([validate_import_args]
      with its nested [_check_required_param], and [validate_positive_int]),
      and
    - [fabric_cli/commands/fs/fab_fs_import.py] ([exec_command]),
    as functions of the values of the parameter bag and, in [stateful], as
    computations on the mutable [args] object, followed by the properties
    the specification states about them and by further properties of the
    same code. *)

From Stdlib Require Import Ascii ZArith NArith Lia.
From Stdlib Require Import DecimalString DecimalPos DecimalN DecimalZ.
From Stdlib Require Import String List Bool.
Import ListNotations.
Local Open Scope string_scope.

(** ** Python values *)

(** The values an [argparse.Namespace] of the [import] command holds:
    [None], a [str], or a [list] of [str] (an [nargs] argument). *)
Inductive pyval : Type :=
| PyNone
| PyStr (s : string)
| PyList (items : list string).

(** Python's truth value testing: [None], [""] and [[]] are false. *)
Definition truthy (v : pyval) : bool :=
  match v with
  | PyNone => false
  | PyStr EmptyString => false
  | PyStr (String _ _) => true
  | PyList [] => false
  | PyList (_ :: _) => true
  end.

(** [a or b] evaluates to [a] when [a] is true and to [b] otherwise;
    [a and b] evaluates to [a] when [a] is false and to [b] otherwise.
    Both yield one of their operands, not a [bool]. *)
Definition py_or (a b : pyval) : pyval := if truthy a then a else b.
Definition py_and (a b : pyval) : pyval := if truthy a then b else a.

Declare Scope py_scope.
Delimit Scope py_scope with py.
Infix "'or'" := py_or (at level 50, left associativity) : py_scope.
Infix "'and'" := py_and (at level 40, left associativity) : py_scope.

(** ** The parameter bag *)

(** The [Namespace] built by the [import] sub-parser: one attribute per
    command-line parameter, [None] when the parameter was not given. *)
Record Namespace : Type := mkNamespace {
  path : pyval;
  input : pyval;
  format : pyval;
  config_file : pyval;
  env : pyval;
  params : pyval
}.

(** [getattr(args, attr_name, default)]. *)
Definition getattr (args : Namespace) (attr_name : string) (default : pyval)
  : pyval :=
  if attr_name =? "path" then path args
  else if attr_name =? "input" then input args
  else if attr_name =? "format" then format args
  else if attr_name =? "config_file" then config_file args
  else if attr_name =? "env" then env args
  else if attr_name =? "params" then params args
  else default.

(** [args.input = v]: the attribute is rebound on the same object. *)
Definition set_input (args : Namespace) (v : pyval) : Namespace :=
  {| path := path args; input := v; format := format args;
     config_file := config_file args; env := env args;
     params := params args |}.

(** ** Errors *)

(** Modelled from the spec: the error message catalog
    [fabric_cli.errors.ErrorMessages.Common] is defined outside the two
    modules embedded here.  The validator depends on the catalog's three
    entries and on the arguments it passes to them, not on their wording, so
    a message is kept as the catalog entry called together with its
    arguments. *)
Inductive ErrorMessage : Type :=
| import_required_param_missing (param_name flow_name syntax : string)
| import_mixed_flows_error
| import_no_flow_specified_error.

(** Modelled from the spec: [fabric_cli.core.fab_constant] is defined outside
    the two modules embedded here.  A status code is kept by the name of its
    constant; [OtherStatus] stands for the codes of the rest of the CLI. *)
Inductive StatusCode : Type :=
| ERROR_IMPORT_VALIDATION
| OtherStatus (code : string).

(** [FabricCLIError(message, status_code)]. *)
Record FabricCLIError : Type := mkFabricCLIError {
  message : ErrorMessage;
  status_code : StatusCode
}.

(** A call either returns a value or raises a [FabricCLIError]. *)
Inductive outcome (A : Type) : Type :=
| Return (a : A)
| Raise (e : FabricCLIError).
Arguments Return {A} a.
Arguments Raise {A} e.

(** Sequencing of calls that may raise, and of commands that also act on
    the shared [Namespace] object. *)
Class Monad (M : Type -> Type) : Type := {
  ret : forall {A : Type}, A -> M A;
  bind : forall {A B : Type}, M A -> (A -> M B) -> M B
}.

Notation "x <- m ;; k" := (bind m (fun x => k))
  (at level 61, m at next level, right associativity).
Notation "m ;; k" := (bind m (fun _ => k))
  (at level 61, right associativity).

#[export] Instance outcome_monad : Monad outcome := {
  ret := fun A a => Return a;
  bind := fun A B m k =>
    match m with
    | Return a => k a
    | Raise e => Raise e
    end
}.

(** ** fab_parser_validators.py *)

Module fab_parser_validators.

(** The nested helper of [validate_import_args]: raises when the attribute
    is missing or false. *)
Definition _check_required_param
    (args : Namespace)
    (attr_name param_display_name flow_name flow_syntax : string)
  : outcome unit :=
  let param_value := getattr args attr_name PyNone in
  if negb (truthy param_value) then
    let error_message :=
      import_required_param_missing param_display_name flow_name flow_syntax in
    Raise (mkFabricCLIError error_message ERROR_IMPORT_VALIDATION)
  else Return tt.

Definition validate_import_args (args : Namespace) : outcome Namespace :=
  let is_direct_api_flow := (path args 'or' input args 'or' format args)%py in
  let is_cicd_flow := (config_file args 'or' env args 'or' params args)%py in
  if truthy (is_direct_api_flow 'and' is_cicd_flow)%py then
    let error_message := import_mixed_flows_error in
    Raise (mkFabricCLIError error_message ERROR_IMPORT_VALIDATION)
  else
    (if truthy is_direct_api_flow then
       let flow_syntax :=
         "fab import <path> -i <input_path> [--format <format>]" in
       _check_required_param args "path" "path" "Direct API" flow_syntax ;;
       _check_required_param args "input" "-i/--input"
                             "Direct API" flow_syntax
     else if truthy is_cicd_flow then
       let flow_syntax :=
         "fab import --config-file <config_path> --env <env_name> [-P <params>]"
       in
       _check_required_param args "config_file"
                             "--config-file" "CICD" flow_syntax ;;
       _check_required_param args "env" "--env" "CICD" flow_syntax
     else
       let error_message := import_no_flow_specified_error in
       Raise (mkFabricCLIError error_message ERROR_IMPORT_VALIDATION)) ;;
    Return args.

End fab_parser_validators.

Import fab_parser_validators.

(** ** fab_fs_import.py *)

Module fab_fs_import.

(** Modelled from the spec: the hierarchy classes [FabricElement] and [Item]
    of [fabric_cli.core.hiearchy.fab_hiearchy] are defined outside the two
    modules embedded here.  A context is either a single addressable item or
    some other element of the hierarchy (a workspace, a folder, the
    tenant). *)
Inductive FabricElement : Type :=
| Item (name : string)
| OtherElement (name : string).

(** [isinstance(context, Item)]. *)
Definition isinstance_Item (context : FabricElement) : bool :=
  match context with
  | Item _ => true
  | OtherElement _ => false
  end.

(** The external executors are observed through the calls made to them; each
    call records the arguments as they are at the time of the call. *)
Inductive Call : Type :=
| import_single_item (context : FabricElement) (args : Namespace)
| import_with_config_file (args : Namespace).

(** [args] is one mutable object shared by the caller, the dispatcher and the
    executors: the world holds its current attributes and the calls made so
    far.  A command keeps the world it has reached also when it raises. *)
Record World : Type := mkWorld {
  ns : Namespace;
  calls : list Call
}.

Definition cmd (A : Type) : Type := World -> outcome A * World.

#[export] Instance cmd_monad : Monad cmd := {
  ret := fun A a w => (Return a, w);
  bind := fun A B m k w =>
    match m w with
    | (Return a, w') => k a w'
    | (Raise e, w') => (Raise e, w')
    end
}.

(** Reading the attributes of [args]. *)
Definition the_args : cmd Namespace := fun w => (Return (ns w), w).

(** [args.input = v]. *)
Definition assign_input (v : pyval) : cmd unit :=
  fun w => (Return tt, mkWorld (set_input (ns w) v) (calls w)).

(** Calling an external executor, as far as the dispatcher is concerned: the
    call is recorded.  What the executor then does (it may raise, it may
    rebind attributes of [args]) is left out here and is part of
    [stateful.exec_command] below. *)
Definition invoke (c : Call) : cmd unit :=
  fun w => (Return tt, mkWorld (ns w) (calls w ++ [c])).

(** Calling a function that does not touch the world. *)
Definition lift {A : Type} (o : outcome A) : cmd A := fun w => (o, w).

(** The [validate_args] attribute, when [args] has one: a validator with the
    signature of [validate_import_args], that is, one that only reads
    [args].  Hooks that also rebind attributes of [args] are those of
    [stateful.exec_command] below. *)
Definition validator : Type := Namespace -> outcome Namespace.

Section Dispatcher.

(** [fabric_cli.utils.fab_util.process_nargs] is defined outside the two
    modules embedded here: the dispatcher is parameterised by it. *)
Variable process_nargs : pyval -> pyval.

(** [validate_args] is [None] when [hasattr(args, 'validate_args')] is
    false. *)
Definition exec_command (validate_args : option validator)
    (context : FabricElement) : cmd unit :=
  match validate_args with
  | Some validate => args <- the_args ;; lift (validate args) ;; ret tt
  | None => ret tt
  end ;;
  args <- the_args ;;
  (* Direct API flow *)
  if truthy (path args 'and' input args)%py then
    assign_input (process_nargs (input args)) ;;
    if isinstance_Item context then
      args <- the_args ;;
      invoke (import_single_item context args)
    else ret tt
  (* CI/CD flow *)
  else if truthy (config_file args) then
    invoke (import_with_config_file args)
  else ret tt.

(** One call [exec_command(args, context)] from a state in which no executor
    has been called yet. *)
Definition run_exec_command (validate_args : option validator)
    (args : Namespace) (context : FabricElement) : outcome unit * World :=
  exec_command validate_args context (mkWorld args []).

End Dispatcher.

(** Modelled from the spec: a stand-in for [process_nargs], described as the
    utility that "converts a CLI-repeated-flag representation into a
    canonical ordered sequence of strings".  It serves to run the dispatcher
    on concrete inputs; the theorems hold for every [process_nargs]. *)
Definition canonical_list (arg : pyval) : pyval :=
  match arg with
  | PyNone => PyList []
  | PyStr s => PyList [s]
  | PyList items => PyList items
  end.

End fab_fs_import.

Import fab_fs_import.

(** ** The same code on the shared, mutable [args] object *)

(** A callable that receives [args]: it reads and may rebind the attributes
    of the object, and it returns or raises.  The object is kept as it is
    when the callable raises. *)
Definition act (A : Type) : Type := Namespace -> outcome A * Namespace.

#[global] Instance act_monad : Monad act := {
  ret := fun A a args => (Return a, args);
  bind := fun A B m k args =>
    match m args with
    | (Return a, args') => k a args'
    | (Raise e, args') => (Raise e, args')
    end
}.

(** [args.field]. *)
Definition attr (field : Namespace -> pyval) : act pyval :=
  fun args => (Return (field args), args).

(** [getattr(args, attr_name, default)]. *)
Definition getattr_args (attr_name : string) (default : pyval) : act pyval :=
  fun args => (Return (getattr args attr_name default), args).

(** [raise e]. *)
Definition raise {A : Type} (e : FabricCLIError) : act A :=
  fun args => (Raise e, args).

(** The object [args] itself, as in [return args]. *)
Definition args_itself : act Namespace := fun args => (Return args, args).

(** [x or y]: [y] is evaluated only when [x] is false. *)
Definition or_else (x y : act pyval) : act pyval :=
  v <- x ;; if truthy v then ret v else y.

(** A callable on [args] run where the calls to the executors are recorded
    too. *)
Definition perform {A : Type} (f : act A) : cmd A :=
  fun w => let (o, args') := f (ns w) in (o, mkWorld args' (calls w)).


Module stateful.

(** [_check_required_param], reading the attribute from the object. *)
Definition _check_required_param
    (attr_name param_display_name flow_name flow_syntax : string)
  : act unit :=
  param_value <- getattr_args attr_name PyNone ;;
  if negb (truthy param_value) then
    let error_message :=
      import_required_param_missing param_display_name flow_name flow_syntax in
    raise (mkFabricCLIError error_message ERROR_IMPORT_VALIDATION)
  else ret tt.

(** [validate_import_args], statement by statement on the object: every
    [args.field] is a read of the object at that moment, and [return args]
    hands the object back. *)
Definition validate_import_args : act Namespace :=
  is_direct_api_flow <-
    or_else (or_else (attr path) (attr input)) (attr format) ;;
  is_cicd_flow <-
    or_else (or_else (attr config_file) (attr env)) (attr params) ;;
  if truthy (is_direct_api_flow 'and' is_cicd_flow)%py then
    let error_message := import_mixed_flows_error in
    raise (mkFabricCLIError error_message ERROR_IMPORT_VALIDATION)
  else
    (if truthy is_direct_api_flow then
       let flow_syntax :=
         "fab import <path> -i <input_path> [--format <format>]" in
       _check_required_param "path" "path" "Direct API" flow_syntax ;;
       _check_required_param "input" "-i/--input" "Direct API" flow_syntax
     else if truthy is_cicd_flow then
       let flow_syntax :=
         "fab import --config-file <config_path> --env <env_name> [-P <params>]"
       in
       _check_required_param "config_file" "--config-file" "CICD"
                             flow_syntax ;;
       _check_required_param "env" "--env" "CICD" flow_syntax
     else
       let error_message := import_no_flow_specified_error in
       raise (mkFabricCLIError error_message ERROR_IMPORT_VALIDATION)) ;;
    args_itself.

Section Dispatcher.

Variable process_nargs : pyval -> pyval.

(** What [import_single_item(context, args)] and
    [import_with_config_file(args)] do once called: any callable on [args].
    The call is given as recorded at the moment it is made. *)
Variable executor : Call -> act unit.

Definition call (c : Call) : cmd unit :=
  invoke c ;; perform (executor c).

(** [exec_command] with a hook that is any callable on [args] ([None] when
    [hasattr(args, 'validate_args')] is false; its result is dropped) and
    with executors that may raise and may change [args]. *)
Definition exec_command (validate_args : option (act Namespace))
    (context : FabricElement) : cmd unit :=
  match validate_args with
  | Some validate => perform validate ;; ret tt
  | None => ret tt
  end ;;
  args <- the_args ;;
  (* Direct API flow *)
  if truthy (path args 'and' input args)%py then
    assign_input (process_nargs (input args)) ;;
    if isinstance_Item context then
      args <- the_args ;;
      call (import_single_item context args)
    else ret tt
  (* CI/CD flow *)
  else if truthy (config_file args) then
    call (import_with_config_file args)
  else ret tt.

Definition run_exec_command (validate_args : option (act Namespace))
    (args : Namespace) (context : FabricElement) : outcome unit * World :=
  exec_command validate_args context (mkWorld args []).

End Dispatcher.

End stateful.

(** The hook's part of a call of [stateful.exec_command]: what it answers
    and the bag as it leaves it. *)
Definition hook_run (validate_args : option (act Namespace))
    (args : Namespace) : outcome unit * Namespace :=
  match validate_args with
  | Some validate => (validate ;; ret tt) args
  | None => (Return tt, args)
  end.

(** An executor that returns and leaves [args] alone, and a validator that
    only reads [args], as callables. *)
Definition returns_at_once : Call -> act unit :=
  fun _ args => (Return tt, args).

Definition reads_only (validate : validator) : act Namespace :=
  fun args => (validate args, args).

(** ** Vocabulary of the statements *)

(** What a caller observes of a validation: the error raised, if any. *)
Definition verdict (o : outcome Namespace) : option FabricCLIError :=
  match o with
  | Return _ => None
  | Raise e => Some e
  end.

(** Two bags with the same presence pattern: each field is set in both or
    in neither. *)
Definition same_presence (a b : Namespace) : bool :=
  eqb (truthy (path a)) (truthy (path b))
  && eqb (truthy (input a)) (truthy (input b))
  && eqb (truthy (format a)) (truthy (format b))
  && eqb (truthy (config_file a)) (truthy (config_file b))
  && eqb (truthy (env a)) (truthy (env b))
  && eqb (truthy (params a)) (truthy (params b)).

(** The bag in which every field that is not set holds [None]. *)
Definition absent_if_empty (v : pyval) : pyval :=
  if truthy v then v else PyNone.

Definition blank_fields (a : Namespace) : Namespace :=
  {| path := absent_if_empty (path a);
     input := absent_if_empty (input a);
     format := absent_if_empty (format a);
     config_file := absent_if_empty (config_file a);
     env := absent_if_empty (env a);
     params := absent_if_empty (params a) |}.

(** The hook of the dispatcher lets the bag through: there is none, or it
    returns. *)
Definition hook_passes (validate_args : option validator) (args : Namespace)
  : bool :=
  match validate_args with
  | None => true
  | Some validate =>
      match validate args with
      | Return _ => true
      | Raise _ => false
      end
  end.

(** ** fab_parser_validators.py: [validate_positive_int] *)

Module positive_int.

(** The exceptions at play: [int] raises [ValueError],
    [validate_positive_int] raises [argparse.ArgumentTypeError], which is no
    subclass of [ValueError]. *)
Inductive exn : Type :=
| ValueError
| ArgumentTypeError (msg : string).

Inductive result (A : Type) : Type :=
| Returns (a : A)
| Raises (e : exn).
Arguments Returns {A} a.
Arguments Raises {A} e.

#[export] Instance result_monad : Monad result := {
  ret := fun A a => Returns a;
  bind := fun A B m k =>
    match m with
    | Returns a => k a
    | Raises e => Raises e
    end
}.

(** [try: body / except ValueError: handler]: any other exception of the
    body passes through. *)
Definition try_except_ValueError {A : Type} (body handler : result A)
  : result A :=
  match body with
  | Raises ValueError => handler
  | _ => body
  end.

(** The built-in [int] on text, base 10.  The text is a [str] of ASCII
    characters, as [argparse] hands a command-line word to a [type=]
    function; the digits and spaces that [int] knows beyond ASCII have no
    counterpart in a [string] of bytes. *)

(** The characters [int] skips around a number: tab, line feed, vertical
    tab, form feed, carriage return and space. *)
Definition is_space (c : ascii) : bool :=
  let n := N_of_ascii c in
  ((9 <=? n) && (n <=? 13) || (n =? 32))%N.

Definition digit_value (c : ascii) : option N :=
  let n := N_of_ascii c in
  if ((48 <=? n) && (n <=? 57))%N then Some (n - 48)%N else None.

Fixpoint skip_spaces (s : string) : string :=
  match s with
  | String c rest => if is_space c then skip_spaces rest else s
  | EmptyString => s
  end.

(** An optional sign; [true] for a minus. *)
Definition split_sign (s : string) : bool * string :=
  match s with
  | String c rest =>
      if (c =? "+")%char then (false, rest)
      else if (c =? "-")%char then (true, rest)
      else (false, s)
  | EmptyString => (false, s)
  end.

(** What the scan of the digits has just read. *)
Inductive scanned : Type := AtStart | AfterDigit | AfterUnderscore.

(** The digits end here: there must be one, and the last character read
    must not be an underscore. *)
Definition stop_scan (prev : scanned) (acc count : N) (rest : string)
  : option (N * N * string) :=
  match prev with
  | AfterDigit => Some (acc, count, rest)
  | AtStart | AfterUnderscore => None
  end.

(** Digits, with single underscores between them: the value read, the number
    of digits and the text that follows; [None] when the text is malformed. *)
Fixpoint scan_digits (s : string) (prev : scanned) (acc count : N)
  : option (N * N * string) :=
  match s with
  | String c rest =>
      match digit_value c with
      | Some d => scan_digits rest AfterDigit (10 * acc + d)%N (count + 1)%N
      | None =>
          if (c =? "_")%char then
            match prev with
            | AfterDigit => scan_digits rest AfterUnderscore acc count
            | AtStart | AfterUnderscore => None
            end
          else stop_scan prev acc count s
      end
  | EmptyString => stop_scan prev acc count s
  end.

Section Interpreter.

(** [sys.get_int_max_str_digits()]: the interpreter's limit on the number of
    digits [int] converts (4300 unless set otherwise, never below 640), [0]
    when there is none. *)
Variable max_str_digits : N.

(** [int(value)]: spaces, an optional sign, the digits, spaces. *)
Definition py_int (value : string) : result Z :=
  let (negative, body) := split_sign (skip_spaces value) in
  match scan_digits body AtStart 0 0 with
  | None => Raises ValueError
  | Some (magnitude, digits, rest) =>
      if ((0 <? max_str_digits) && (max_str_digits <? digits))%N then
        Raises ValueError
      else
        match skip_spaces rest with
        | EmptyString =>
            Returns (if negative then (- Z.of_N magnitude)%Z
                     else Z.of_N magnitude)
        | String _ _ => Raises ValueError
        end
  end.

(** Validate that the value is a positive integer. *)
Definition validate_positive_int (value : string) : result Z :=
  try_except_ValueError
    (ivalue <- py_int value ;;
     if (ivalue <=? 0)%Z then
       Raises (ArgumentTypeError
                 ("'" ++ value ++ "' must be a positive integer"))
     else Returns ivalue)
    (Raises (ArgumentTypeError ("'" ++ value ++ "' is not a valid integer"))).

End Interpreter.

End positive_int.

Import positive_int.

(** ** Vocabulary of the statements on [validate_positive_int] *)

(** [str(n)]: the decimal text of an integer. *)
Definition decimal (n : Z) : string := NilZero.string_of_int (Z.to_int n).

(** The number of digits of [n] is one that [int] converts. *)
Definition digits_within_limit (max_str_digits : N) (n : Z) : Prop :=
  max_str_digits = 0%N
  \/ (N.of_nat (String.length (decimal (Z.abs n))) <= max_str_digits)%N.

(** The text has no more characters than [int] converts digits; for the
    text of a positive integer, which is digits only, this is the limit of
    [int] itself. *)
Definition within_digit_limit (max_str_digits : N) (s : string) : Prop :=
  max_str_digits = 0%N \/ (N.of_nat (String.length s) <= max_str_digits)%N.

(** Text made of spaces only; the empty text is one. *)
Fixpoint all_spaces (s : string) : bool :=
  match s with
  | String c rest => is_space c && all_spaces rest
  | EmptyString => true
  end.

(** The characters that occur in the text of an integer. *)
Definition int_char (c : ascii) : bool :=
  is_space c
  || match digit_value c with Some _ => true | None => false end
  || (c =? "_")%char || (c =? "+")%char || (c =? "-")%char.

(** The value of a sequence of decimal digits read from the left, after
    [acc]. *)
Fixpoint horner (d : Decimal.uint) (acc : N) : N :=
  match d with
  | Decimal.Nil => acc
  | Decimal.D0 d => horner d (10 * acc + 0)
  | Decimal.D1 d => horner d (10 * acc + 1)
  | Decimal.D2 d => horner d (10 * acc + 2)
  | Decimal.D3 d => horner d (10 * acc + 3)
  | Decimal.D4 d => horner d (10 * acc + 4)
  | Decimal.D5 d => horner d (10 * acc + 5)
  | Decimal.D6 d => horner d (10 * acc + 6)
  | Decimal.D7 d => horner d (10 * acc + 7)
  | Decimal.D8 d => horner d (10 * acc + 8)
  | Decimal.D9 d => horner d (10 * acc + 9)
  end%N.

(** ** Truth values of [or] and [and] *)

Lemma truthy_py_or (a b : pyval) :
  truthy (a 'or' b)%py = truthy a || truthy b.
Proof.
  unfold py_or. destruct (truthy a) eqn:Ha; [exact Ha | reflexivity].
Qed.

Lemma truthy_py_and (a b : pyval) :
  truthy (a 'and' b)%py = truthy a && truthy b.
Proof.
  unfold py_and. destruct (truthy a) eqn:Ha; [reflexivity | exact Ha].
Qed.

Lemma truthy_absent_if_empty (v : pyval) :
  truthy (absent_if_empty v) = truthy v.
Proof.
  unfold absent_if_empty. destruct (truthy v) eqn:Hv; [exact Hv | reflexivity].
Qed.

(** ** The validator as a truth table *)

(** [validate_import_args] decides on the six presence flags alone; the four
    outcomes in the order in which the code reaches them. *)
Lemma validate_import_args_table (args : Namespace) :
  validate_import_args args =
    let direct :=
      truthy (path args) || truthy (input args) || truthy (format args) in
    let cicd :=
      truthy (config_file args) || truthy (env args) || truthy (params args) in
    if direct && cicd then
      Raise (mkFabricCLIError import_mixed_flows_error ERROR_IMPORT_VALIDATION)
    else if direct then
      if negb (truthy (path args)) then
        Raise (mkFabricCLIError
                 (import_required_param_missing "path" "Direct API"
                    "fab import <path> -i <input_path> [--format <format>]")
                 ERROR_IMPORT_VALIDATION)
      else if negb (truthy (input args)) then
        Raise (mkFabricCLIError
                 (import_required_param_missing "-i/--input" "Direct API"
                    "fab import <path> -i <input_path> [--format <format>]")
                 ERROR_IMPORT_VALIDATION)
      else Return args
    else if cicd then
      if negb (truthy (config_file args)) then
        Raise (mkFabricCLIError
                 (import_required_param_missing "--config-file" "CICD"
                    "fab import --config-file <config_path> --env <env_name> [-P <params>]")
                 ERROR_IMPORT_VALIDATION)
      else if negb (truthy (env args)) then
        Raise (mkFabricCLIError
                 (import_required_param_missing "--env" "CICD"
                    "fab import --config-file <config_path> --env <env_name> [-P <params>]")
                 ERROR_IMPORT_VALIDATION)
      else Return args
    else
      Raise (mkFabricCLIError import_no_flow_specified_error
                              ERROR_IMPORT_VALIDATION).
Proof.
  unfold validate_import_args, _check_required_param.
  cbn [getattr String.eqb Ascii.eqb Bool.eqb].
  rewrite truthy_py_and, !truthy_py_or.
  cbv zeta.
  destruct (truthy (path args)), (truthy (input args)), (truthy (format args)),
    (truthy (config_file args)), (truthy (env args)), (truthy (params args));
    reflexivity.
Qed.

(** ** Properties of the flow validator *)

(** C1.  A bag in which some field of {path, input, format} and some field
    of {config_file, env, params} are set is rejected with the mixed-flows
    message; the error is never a missing-parameter error, whichever required
    fields are missing too. *)
Theorem mixed_flows_rejected_first (args : Namespace) :
  truthy (path args) || truthy (input args) || truthy (format args) = true ->
  truthy (config_file args) || truthy (env args) || truthy (params args)
    = true ->
  validate_import_args args =
    Raise (mkFabricCLIError import_mixed_flows_error ERROR_IMPORT_VALIDATION)
  /\ forall param flow syntax code,
       validate_import_args args <>
         Raise (mkFabricCLIError
                  (import_required_param_missing param flow syntax) code).
Proof.
  intros Hdirect Hcicd.
  assert (Hmixed : validate_import_args args =
            Raise (mkFabricCLIError import_mixed_flows_error
                                    ERROR_IMPORT_VALIDATION)).
  { rewrite validate_import_args_table. cbv zeta.
    rewrite Hdirect, Hcicd. reflexivity. }
  split; [exact Hmixed |].
  intros param flow syntax code Heq.
  rewrite Hmixed in Heq. discriminate Heq.
Qed.

(** Only [format] of the Direct flow and only [params] of the CICD flow are
    given: every required field of both flows is missing, and the error is
    still the mixed-flows one. *)
Lemma mixed_flows_rejected_first_witness :
  validate_import_args
    (mkNamespace PyNone PyNone (PyStr ".ipynb") PyNone PyNone (PyStr "[{}]")) =
    Raise (mkFabricCLIError import_mixed_flows_error ERROR_IMPORT_VALIDATION)
  /\ forall param flow syntax code,
       validate_import_args
         (mkNamespace PyNone PyNone (PyStr ".ipynb")
                      PyNone PyNone (PyStr "[{}]")) <>
         Raise (mkFabricCLIError
                  (import_required_param_missing param flow syntax) code).
Proof.
  apply (mixed_flows_rejected_first
           (mkNamespace PyNone PyNone (PyStr ".ipynb")
                        PyNone PyNone (PyStr "[{}]")));
    reflexivity.
Defined.

(** C2.  A bag that is a candidate for the Direct flow only fails naming
    [path] when [path] is empty (also when [input] is empty too), else fails
    naming [-i/--input] when [input] is empty, else is returned. *)
Theorem direct_flow_required_fields (args : Namespace) :
  truthy (path args) || truthy (input args) || truthy (format args) = true ->
  truthy (config_file args) || truthy (env args) || truthy (params args)
    = false ->
  validate_import_args args =
    if negb (truthy (path args)) then
      Raise (mkFabricCLIError
               (import_required_param_missing "path" "Direct API"
                  "fab import <path> -i <input_path> [--format <format>]")
               ERROR_IMPORT_VALIDATION)
    else if negb (truthy (input args)) then
      Raise (mkFabricCLIError
               (import_required_param_missing "-i/--input" "Direct API"
                  "fab import <path> -i <input_path> [--format <format>]")
               ERROR_IMPORT_VALIDATION)
    else Return args.
Proof.
  intros Hdirect Hcicd.
  rewrite validate_import_args_table. cbv zeta.
  rewrite Hdirect, Hcicd. reflexivity.
Qed.

(** [path] and [input] both missing: the error names [path]. *)
Lemma direct_flow_required_fields_witness :
  validate_import_args
    (mkNamespace PyNone PyNone (PyStr ".ipynb") PyNone PyNone PyNone) =
    Raise (mkFabricCLIError
             (import_required_param_missing "path" "Direct API"
                "fab import <path> -i <input_path> [--format <format>]")
             ERROR_IMPORT_VALIDATION).
Proof.
  apply (direct_flow_required_fields
           (mkNamespace PyNone PyNone (PyStr ".ipynb") PyNone PyNone PyNone));
    reflexivity.
Defined.

(** C3.  A bag that is a candidate for the CICD flow only fails naming
    [--config-file] when [config_file] is empty, else fails naming [--env]
    when [env] is empty, else is returned. *)
Theorem cicd_flow_required_fields (args : Namespace) :
  truthy (config_file args) || truthy (env args) || truthy (params args)
    = true ->
  truthy (path args) || truthy (input args) || truthy (format args) = false ->
  validate_import_args args =
    if negb (truthy (config_file args)) then
      Raise (mkFabricCLIError
               (import_required_param_missing "--config-file" "CICD"
                  "fab import --config-file <config_path> --env <env_name> [-P <params>]")
               ERROR_IMPORT_VALIDATION)
    else if negb (truthy (env args)) then
      Raise (mkFabricCLIError
               (import_required_param_missing "--env" "CICD"
                  "fab import --config-file <config_path> --env <env_name> [-P <params>]")
               ERROR_IMPORT_VALIDATION)
    else Return args.
Proof.
  intros Hcicd Hdirect.
  rewrite validate_import_args_table. cbv zeta.
  rewrite Hcicd, Hdirect. reflexivity.
Qed.

(** [config_file] given without [env]: the error names [--env]. *)
Lemma cicd_flow_required_fields_witness :
  validate_import_args
    (mkNamespace PyNone PyNone PyNone (PyStr "/cfg.yml") PyNone PyNone) =
    Raise (mkFabricCLIError
             (import_required_param_missing "--env" "CICD"
                "fab import --config-file <config_path> --env <env_name> [-P <params>]")
             ERROR_IMPORT_VALIDATION).
Proof.
  apply (cicd_flow_required_fields
           (mkNamespace PyNone PyNone PyNone (PyStr "/cfg.yml") PyNone PyNone));
    reflexivity.
Defined.

(** C5.  A bag whose only set field is an optional one is not reported as
    "no flow specified": [format] alone fails naming [path] for the Direct
    flow, [params] alone fails naming [--config-file] for the CICD flow. *)
Theorem optional_field_alone_selects_flow (args : Namespace) :
  truthy (path args) = false -> truthy (input args) = false ->
  truthy (config_file args) = false -> truthy (env args) = false ->
  (truthy (format args) = true /\ truthy (params args) = false)
  \/ (truthy (format args) = false /\ truthy (params args) = true) ->
  validate_import_args args =
    (if truthy (format args) then
       Raise (mkFabricCLIError
                (import_required_param_missing "path" "Direct API"
                   "fab import <path> -i <input_path> [--format <format>]")
                ERROR_IMPORT_VALIDATION)
     else
       Raise (mkFabricCLIError
                (import_required_param_missing "--config-file" "CICD"
                   "fab import --config-file <config_path> --env <env_name> [-P <params>]")
                ERROR_IMPORT_VALIDATION))
  /\ validate_import_args args <>
       Raise (mkFabricCLIError import_no_flow_specified_error
                               ERROR_IMPORT_VALIDATION).
Proof.
  intros Hpath Hinput Hconfig Henv Honly.
  rewrite validate_import_args_table. cbv zeta.
  rewrite Hpath, Hinput, Hconfig, Henv.
  destruct Honly as [[Hformat Hparams] | [Hformat Hparams]];
    rewrite Hformat, Hparams; cbn; split;
    solve [reflexivity | discriminate].
Qed.

(** [format] alone, then [params] alone. *)
Lemma optional_field_alone_selects_flow_witness :
  (validate_import_args
     (mkNamespace PyNone PyNone (PyStr ".ipynb") PyNone PyNone PyNone) =
     Raise (mkFabricCLIError
              (import_required_param_missing "path" "Direct API"
                 "fab import <path> -i <input_path> [--format <format>]")
              ERROR_IMPORT_VALIDATION))
  /\ (validate_import_args
        (mkNamespace PyNone PyNone PyNone PyNone PyNone (PyStr "[{}]")) =
        Raise (mkFabricCLIError
                 (import_required_param_missing "--config-file" "CICD"
                    "fab import --config-file <config_path> --env <env_name> [-P <params>]")
                 ERROR_IMPORT_VALIDATION)).
Proof.
  split.
  - apply (optional_field_alone_selects_flow
             (mkNamespace PyNone PyNone (PyStr ".ipynb") PyNone PyNone PyNone));
      try reflexivity.
    left. split; reflexivity.
  - apply (optional_field_alone_selects_flow
             (mkNamespace PyNone PyNone PyNone PyNone PyNone (PyStr "[{}]")));
      try reflexivity.
    right. split; reflexivity.
Defined.

(** C6.  A bag in which none of the six fields is set is rejected with the
    no-flow message, which is no missing-parameter message. *)
Theorem no_flow_specified (args : Namespace) :
  truthy (path args) = false -> truthy (input args) = false ->
  truthy (format args) = false -> truthy (config_file args) = false ->
  truthy (env args) = false -> truthy (params args) = false ->
  validate_import_args args =
    Raise (mkFabricCLIError import_no_flow_specified_error
                            ERROR_IMPORT_VALIDATION)
  /\ forall param flow syntax code,
       validate_import_args args <>
         Raise (mkFabricCLIError
                  (import_required_param_missing param flow syntax) code).
Proof.
  intros Hpath Hinput Hformat Hconfig Henv Hparams.
  rewrite validate_import_args_table. cbv zeta.
  rewrite Hpath, Hinput, Hformat, Hconfig, Henv, Hparams. cbn.
  split; [reflexivity | intros; discriminate].
Qed.

(** The bag of a bare [fab import]. *)
Lemma no_flow_specified_witness :
  validate_import_args
    (mkNamespace PyNone PyNone PyNone PyNone PyNone PyNone) =
    Raise (mkFabricCLIError import_no_flow_specified_error
                            ERROR_IMPORT_VALIDATION)
  /\ forall param flow syntax code,
       validate_import_args
         (mkNamespace PyNone PyNone PyNone PyNone PyNone PyNone) <>
         Raise (mkFabricCLIError
                  (import_required_param_missing param flow syntax) code).
Proof.
  apply (no_flow_specified
           (mkNamespace PyNone PyNone PyNone PyNone PyNone PyNone));
    reflexivity.
Defined.

(** A validation that returns, returns its argument. *)
Lemma validate_import_args_returns_argument (args r : Namespace) :
  validate_import_args args = Return r -> r = args.
Proof.
  rewrite validate_import_args_table. cbv zeta.
  repeat match goal with
         | |- context [if ?b then _ else _] => destruct b
         end;
    intro Heq; first [discriminate Heq | now inversion Heq].
Qed.

(** On the object, the validator reads and nothing else: it answers what
    [validate_import_args] answers on the values read, and the object is as
    before. *)
Lemma stateful_validate_import_args_run (args : Namespace) :
  stateful.validate_import_args args = (validate_import_args args, args).
Proof.
  rewrite validate_import_args_table. cbv zeta.
  unfold stateful.validate_import_args, stateful._check_required_param,
    or_else, attr, getattr_args, raise, args_itself.
  destruct (truthy (path args)) eqn:Hpath,
    (truthy (input args)) eqn:Hinput,
    (truthy (format args)) eqn:Hformat,
    (truthy (config_file args)) eqn:Hconfig,
    (truthy (env args)) eqn:Henv,
    (truthy (params args)) eqn:Hparams;
    repeat (progress
              (cbn;
               rewrite ?truthy_py_and, ?Hpath, ?Hinput, ?Hformat, ?Hconfig,
                 ?Henv, ?Hparams));
    reflexivity.
Qed.

(** C7.  The validator is a pure function of the bag's contents.  Run on
    the mutable [args] object it rebinds no attribute; when it returns, what
    it returns is the bag it was given; its answer is a function of the
    values of the six fields; and validating the same object a second time
    gives the outcome of the first call and still leaves the bag as it
    was. *)
Theorem validate_import_args_leaves_bag_unchanged (args : Namespace) :
  let first := stateful.validate_import_args args in
  let second := stateful.validate_import_args (snd first) in
  snd first = args
  /\ match fst first with
     | Return returned => returned = args
     | Raise _ => True
     end
  /\ fst first = validate_import_args args
  /\ fst second = fst first
  /\ snd second = args.
Proof.
  cbv zeta.
  repeat (rewrite stateful_validate_import_args_run; cbn [fst snd]).
  split; [reflexivity | split; [| repeat split]].
  destruct (validate_import_args args) as [returned | e] eqn:Hfirst;
    [| exact I].
  exact (validate_import_args_returns_argument _ _ Hfirst).
Qed.

(** C8.  Every error the validator raises carries the status code
    [ERROR_IMPORT_VALIDATION], and its message is one of the catalog's
    import-validation entries: mixed flows, no flow, or a required parameter
    of one of the two flows. *)
Theorem validation_errors_share_status_code
    (args : Namespace) (e : FabricCLIError) :
  validate_import_args args = Raise e ->
  status_code e = ERROR_IMPORT_VALIDATION
  /\ (message e = import_mixed_flows_error
      \/ message e = import_no_flow_specified_error
      \/ (exists param, (param = "path" \/ param = "-i/--input")
            /\ message e =
                 import_required_param_missing param "Direct API"
                   "fab import <path> -i <input_path> [--format <format>]")
      \/ (exists param, (param = "--config-file" \/ param = "--env")
            /\ message e =
                 import_required_param_missing param "CICD"
                   "fab import --config-file <config_path> --env <env_name> [-P <params>]")).
Proof.
  rewrite validate_import_args_table. cbv zeta.
  repeat match goal with
         | |- context [if ?b then _ else _] => destruct b
         end;
    intro Hraise; inversion Hraise; subst e; cbn; split;
    try reflexivity; eauto 8.
Qed.

(** The error of a bag with [path] but no [input]. *)
Lemma validation_errors_share_status_code_witness :
  status_code
    (mkFabricCLIError
       (import_required_param_missing "-i/--input" "Direct API"
          "fab import <path> -i <input_path> [--format <format>]")
       ERROR_IMPORT_VALIDATION) = ERROR_IMPORT_VALIDATION.
Proof.
  apply (validation_errors_share_status_code
           (mkNamespace (PyList ["ws1.Workspace/nb1.Notebook"])
                        PyNone PyNone PyNone PyNone PyNone)
           (mkFabricCLIError
              (import_required_param_missing "-i/--input" "Direct API"
                 "fab import <path> -i <input_path> [--format <format>]")
              ERROR_IMPORT_VALIDATION)).
  reflexivity.
Defined.

(** Bags with the same presence pattern get the same verdict. *)
Lemma same_presence_same_verdict (a b : Namespace) :
  same_presence a b = true ->
  verdict (validate_import_args a) = verdict (validate_import_args b).
Proof.
  unfold same_presence. intro Hsame.
  repeat (apply andb_prop in Hsame; destruct Hsame as [Hsame ?]).
  repeat match goal with
         | H : eqb _ _ = true |- _ => apply eqb_prop in H
         end.
  rewrite !validate_import_args_table. cbv zeta.
  repeat match goal with
         | H : truthy _ = truthy _ |- _ => rewrite H; clear H
         end.
  repeat match goal with
         | |- context [if ?c then _ else _] => destruct c
         end; reflexivity.
Qed.

Lemma same_presence_blank_fields (a : Namespace) :
  same_presence (blank_fields a) a = true.
Proof.
  unfold same_presence, blank_fields; cbn.
  rewrite !truthy_absent_if_empty, !eqb_reflx. reflexivity.
Qed.

(** C9.  Presence is truthiness: replacing every empty string and empty list
    of a bag by [None] changes neither the verdict of the validator, nor the
    two candidate flags, nor any required-field check.  So [path = []] with
    an [input] fails naming [path], and [format = ""] alone is "no flow
    specified". *)
Theorem empty_field_is_absent :
  (forall a : Namespace,
     verdict (validate_import_args (blank_fields a))
       = verdict (validate_import_args a)
     /\ truthy (path (blank_fields a) 'or' input (blank_fields a)
                  'or' format (blank_fields a))%py
        = truthy (path a 'or' input a 'or' format a)%py
     /\ truthy (config_file (blank_fields a) 'or' env (blank_fields a)
                  'or' params (blank_fields a))%py
        = truthy (config_file a 'or' env a 'or' params a)%py
     /\ forall attr_name param_display_name flow_name flow_syntax,
          _check_required_param (blank_fields a) attr_name
            param_display_name flow_name flow_syntax
          = _check_required_param a attr_name
              param_display_name flow_name flow_syntax)
  /\ (forall (x : string) (xs : list string) (fmt : pyval),
        validate_import_args
          (mkNamespace (PyList []) (PyList (x :: xs)) fmt
                       PyNone PyNone PyNone) =
          Raise (mkFabricCLIError
                   (import_required_param_missing "path" "Direct API"
                      "fab import <path> -i <input_path> [--format <format>]")
                   ERROR_IMPORT_VALIDATION))
  /\ validate_import_args
       (mkNamespace PyNone PyNone (PyStr "") PyNone PyNone PyNone) =
       Raise (mkFabricCLIError import_no_flow_specified_error
                               ERROR_IMPORT_VALIDATION).
Proof.
  split; [| split].
  - intro a. split; [| split; [| split]].
    + apply same_presence_same_verdict, same_presence_blank_fields.
    + rewrite !truthy_py_or. cbn. now rewrite !truthy_absent_if_empty.
    + rewrite !truthy_py_or. cbn. now rewrite !truthy_absent_if_empty.
    + intros attr_name param_display_name flow_name flow_syntax.
      unfold _check_required_param, getattr, blank_fields; cbn.
      repeat match goal with
             | |- context [(attr_name =? ?s)%string] =>
                 destruct (attr_name =? s)%string
             end;
        rewrite ?truthy_absent_if_empty; reflexivity.
  - intros x xs fmt.
    rewrite validate_import_args_table. reflexivity.
  - reflexivity.
Qed.

(** ** Properties of the flow dispatcher *)

Section DispatcherProperties.

Variable process_nargs : pyval -> pyval.

(** One call of [exec_command], branch by branch. *)
Lemma run_exec_command_table (validate_args : option validator)
    (args : Namespace) (context : FabricElement) :
  run_exec_command process_nargs validate_args args context =
    match
      match validate_args with
      | Some validate => validate args
      | None => Return args
      end
    with
    | Raise e => (Raise e, mkWorld args [])
    | Return _ =>
        if truthy (path args) && truthy (input args) then
          let args' := set_input args (process_nargs (input args)) in
          (Return tt,
           mkWorld args'
             (if isinstance_Item context
              then [import_single_item context args'] else []))
        else if truthy (config_file args) then
          (Return tt, mkWorld args [import_with_config_file args])
        else (Return tt, mkWorld args [])
    end.
Proof.
  unfold run_exec_command, exec_command.
  destruct validate_args as [validate |]; cbn.
  - unfold lift. destruct (validate args) as [r | e]; cbn; [| reflexivity].
    rewrite truthy_py_and.
    destruct (truthy (path args) && truthy (input args)); cbn.
    + destruct (isinstance_Item context); reflexivity.
    + destruct (truthy (config_file args)); reflexivity.
  - rewrite truthy_py_and.
    destruct (truthy (path args) && truthy (input args)); cbn.
    + destruct (isinstance_Item context); reflexivity.
    + destruct (truthy (config_file args)); reflexivity.
Qed.

Lemma hook_passes_returns (validate_args : option validator)
    (args : Namespace) :
  hook_passes validate_args args = true ->
  exists r,
    match validate_args with
    | Some validate => validate args
    | None => Return args
    end = Return r.
Proof.
  unfold hook_passes.
  destruct validate_args as [validate |]; [| intros _; now exists args].
  destruct (validate args) as [r | e]; [intros _; now exists r | discriminate].
Qed.

(** C4, as the code has it.  For a bag with [path] and [input] that the hook
    lets through, a context that is not an [Item] raises nothing:
    [exec_command] normalises [input], calls no executor and returns. *)
Theorem non_item_context_returns_silently (validate_args : option validator)
    (args : Namespace) (context : FabricElement) :
  truthy (path args) = true -> truthy (input args) = true ->
  hook_passes validate_args args = true ->
  isinstance_Item context = false ->
  run_exec_command process_nargs validate_args args context =
    (Return tt, mkWorld (set_input args (process_nargs (input args))) []).
Proof.
  intros Hpath Hinput Hhook Hctx.
  rewrite run_exec_command_table.
  destruct (hook_passes_returns _ _ Hhook) as [r ->].
  rewrite Hpath, Hinput, Hctx. reflexivity.
Qed.

(** C10.  Dispatching a Direct-flow bag to an [Item] rebinds [input] to
    [process_nargs(input)] and nothing else, and the Direct executor is called
    with the bag in that state.  Dispatching a bag that the dispatcher takes
    for the CICD flow ([config_file] set, [path] or [input] not set) leaves
    the bag as it was and calls the CICD executor with it; with
    [validate_import_args] as the hook, every bag with [config_file] set is
    left as it was. *)
Theorem exec_command_frame (validate_args : option validator)
    (args : Namespace) (context : FabricElement) :
  let result := run_exec_command process_nargs validate_args args context in
  let args' := ns (snd result) in
  (hook_passes validate_args args = true ->
   truthy (path args) = true -> truthy (input args) = true ->
   isinstance_Item context = true ->
   fst result = Return tt
   /\ input args' = process_nargs (input args)
   /\ path args' = path args
   /\ format args' = format args
   /\ config_file args' = config_file args
   /\ env args' = env args
   /\ params args' = params args
   /\ calls (snd result) = [import_single_item context args'])
  /\ (truthy (config_file args) = true ->
      truthy (path args) && truthy (input args) = false ->
      args' = args
      /\ (hook_passes validate_args args = true ->
          result = (Return tt, mkWorld args [import_with_config_file args])))
  /\ (truthy (config_file args) = true ->
      validate_args = Some validate_import_args ->
      args' = args).
Proof.
  cbv zeta. rewrite run_exec_command_table.
  split; [| split].
  - intros Hhook Hpath Hinput Hctx.
    destruct (hook_passes_returns _ _ Hhook) as [r ->].
    rewrite Hpath, Hinput, Hctx. cbn. repeat split.
  - intros Hconfig Hshape. rewrite Hshape, Hconfig. split.
    + destruct (match validate_args with
                | Some validate => validate args
                | None => Return args
                end); reflexivity.
    + intro Hhook. destruct (hook_passes_returns _ _ Hhook) as [r ->].
      reflexivity.
  - intros Hconfig ->.
    rewrite validate_import_args_table. cbv zeta. rewrite Hconfig.
    destruct (truthy (path args)), (truthy (input args)),
      (truthy (format args)), (truthy (env args)); reflexivity.
Qed.

End DispatcherProperties.

(** A valid Direct-flow bag dispatched on a workspace: the hook returns, no
    error is raised, no executor is called. *)
Lemma non_item_context_is_not_rejected :
  validate_import_args
    (mkNamespace (PyList ["ws1.Workspace/nb1.Notebook"])
                 (PyList ["/path/to/input"]) PyNone PyNone PyNone PyNone) =
    Return (mkNamespace (PyList ["ws1.Workspace/nb1.Notebook"])
                        (PyList ["/path/to/input"])
                        PyNone PyNone PyNone PyNone)
  /\ isinstance_Item (OtherElement "ws1.Workspace") = false
  /\ run_exec_command canonical_list (Some validate_import_args)
       (mkNamespace (PyList ["ws1.Workspace/nb1.Notebook"])
                    (PyList ["/path/to/input"]) PyNone PyNone PyNone PyNone)
       (OtherElement "ws1.Workspace") =
       (Return tt,
        mkWorld (mkNamespace (PyList ["ws1.Workspace/nb1.Notebook"])
                             (PyList ["/path/to/input"])
                             PyNone PyNone PyNone PyNone)
                [])
  /\ ~ exists e,
         fst (run_exec_command canonical_list (Some validate_import_args)
                (mkNamespace (PyList ["ws1.Workspace/nb1.Notebook"])
                             (PyList ["/path/to/input"])
                             PyNone PyNone PyNone PyNone)
                (OtherElement "ws1.Workspace")) = Raise e.
Proof.
  repeat split.
  intros [e He]. discriminate He.
Qed.

(** A single [-i] value given as a string, dispatched on a folder without a
    hook. *)
Lemma non_item_context_returns_silently_witness :
  run_exec_command canonical_list None
    (mkNamespace (PyList ["ws1.Workspace/nb1.Notebook"])
                 (PyStr "/path/to/input") PyNone PyNone PyNone PyNone)
    (OtherElement "ws1.Workspace/f1.Folder") =
    (Return tt,
     mkWorld (mkNamespace (PyList ["ws1.Workspace/nb1.Notebook"])
                          (PyList ["/path/to/input"])
                          PyNone PyNone PyNone PyNone)
             []).
Proof.
  apply (non_item_context_returns_silently canonical_list None
           (mkNamespace (PyList ["ws1.Workspace/nb1.Notebook"])
                        (PyStr "/path/to/input") PyNone PyNone PyNone PyNone)
           (OtherElement "ws1.Workspace/f1.Folder"));
    reflexivity.
Defined.

(** The Direct-flow bag of the end-to-end examples, with a format, dispatched
    on its notebook under the validator. *)
Lemma exec_command_frame_witness :
  calls (snd (run_exec_command canonical_list (Some validate_import_args)
                (mkNamespace (PyList ["ws1.Workspace/nb1.Notebook"])
                             (PyStr "/path/to/input") (PyStr ".ipynb")
                             PyNone PyNone PyNone)
                (Item "nb1.Notebook"))) =
    [import_single_item (Item "nb1.Notebook")
       (mkNamespace (PyList ["ws1.Workspace/nb1.Notebook"])
                    (PyList ["/path/to/input"]) (PyStr ".ipynb")
                    PyNone PyNone PyNone)]
  /\ ns (snd (run_exec_command canonical_list (Some validate_import_args)
                (mkNamespace PyNone PyNone PyNone
                             (PyStr "/cfg.yml") (PyStr "production") PyNone)
                (OtherElement "ws1.Workspace"))) =
     mkNamespace PyNone PyNone PyNone
                 (PyStr "/cfg.yml") (PyStr "production") PyNone.
Proof.
  split.
  - apply (proj1 (exec_command_frame canonical_list
                    (Some validate_import_args)
                    (mkNamespace (PyList ["ws1.Workspace/nb1.Notebook"])
                                 (PyStr "/path/to/input") (PyStr ".ipynb")
                                 PyNone PyNone PyNone)
                    (Item "nb1.Notebook")));
      reflexivity.
  - apply (proj1 (proj2 (exec_command_frame canonical_list
                           (Some validate_import_args)
                           (mkNamespace PyNone PyNone PyNone
                              (PyStr "/cfg.yml") (PyStr "production") PyNone)
                           (OtherElement "ws1.Workspace"))));
      reflexivity.
Defined.

(** ** The end-to-end examples of the specification *)

Example direct_flow_accepted :
  validate_import_args
    (mkNamespace (PyList ["ws1.Workspace/nb1.Notebook"])
                 (PyList ["/path/to/input"]) PyNone PyNone PyNone PyNone) =
    Return (mkNamespace (PyList ["ws1.Workspace/nb1.Notebook"])
                        (PyList ["/path/to/input"])
                        PyNone PyNone PyNone PyNone).
Proof. reflexivity. Qed.

Example cicd_flow_accepted :
  validate_import_args
    (mkNamespace PyNone PyNone PyNone
                 (PyStr "/cfg.yml") (PyStr "production") PyNone) =
    Return (mkNamespace PyNone PyNone PyNone
                        (PyStr "/cfg.yml") (PyStr "production") PyNone).
Proof. reflexivity. Qed.

Example cicd_flow_dispatched :
  run_exec_command canonical_list (Some validate_import_args)
    (mkNamespace PyNone PyNone PyNone
                 (PyStr "/cfg.yml") (PyStr "production") PyNone)
    (Item "nb1.Notebook") =
    (Return tt,
     mkWorld (mkNamespace PyNone PyNone PyNone
                          (PyStr "/cfg.yml") (PyStr "production") PyNone)
             [import_with_config_file
                (mkNamespace PyNone PyNone PyNone
                             (PyStr "/cfg.yml") (PyStr "production") PyNone)]).
Proof. reflexivity. Qed.

Example mixed_flows_stop_the_dispatcher :
  run_exec_command canonical_list (Some validate_import_args)
    (mkNamespace (PyList ["ws1.Workspace/nb1.Notebook"])
                 (PyList ["/path/to/input"]) PyNone
                 (PyStr "/cfg.yml") (PyStr "production") PyNone)
    (Item "nb1.Notebook") =
    (Raise (mkFabricCLIError import_mixed_flows_error ERROR_IMPORT_VALIDATION),
     mkWorld (mkNamespace (PyList ["ws1.Workspace/nb1.Notebook"])
                          (PyList ["/path/to/input"]) PyNone
                          (PyStr "/cfg.yml") (PyStr "production") PyNone)
             []).
Proof. reflexivity. Qed.

(** ** Further properties of the flow validator *)

(** X1.  The validator returns exactly on the two complete, unmixed shapes:
    [path] and [input] set with no CICD field, or [config_file] and [env] set
    with no Direct field. *)
Theorem validate_import_args_accepts_iff (args : Namespace) :
  validate_import_args args = Return args <->
  (truthy (path args) = true /\ truthy (input args) = true
   /\ truthy (config_file args) = false /\ truthy (env args) = false
   /\ truthy (params args) = false)
  \/ (truthy (config_file args) = true /\ truthy (env args) = true
      /\ truthy (path args) = false /\ truthy (input args) = false
      /\ truthy (format args) = false).
Proof.
  rewrite validate_import_args_table. cbv zeta.
  destruct (truthy (path args)), (truthy (input args)),
    (truthy (format args)), (truthy (config_file args)),
    (truthy (env args)), (truthy (params args)); cbn;
    (split;
     [ intro H; first [discriminate H | tauto]
     | intros [H | H]; decompose [and] H;
       first [discriminate | reflexivity] ]).
Qed.

(** A complete CICD bag with parameter overrides is accepted. *)
Lemma validate_import_args_accepts_iff_witness :
  validate_import_args
    (mkNamespace PyNone PyNone PyNone
                 (PyStr "/cfg.yml") (PyStr "production") (PyStr "[{}]")) =
    Return (mkNamespace PyNone PyNone PyNone
                        (PyStr "/cfg.yml") (PyStr "production")
                        (PyStr "[{}]")).
Proof.
  apply (proj2 (validate_import_args_accepts_iff
                  (mkNamespace PyNone PyNone PyNone
                     (PyStr "/cfg.yml") (PyStr "production")
                     (PyStr "[{}]")))).
  right. repeat split.
Defined.

(** X2.  Each error of the validator diagnoses the bag: the message raised
    tells which fields are set. *)
Theorem validate_import_args_error_diagnoses (args : Namespace) :
  let direct :=
    truthy (path args) || truthy (input args) || truthy (format args) in
  let cicd :=
    truthy (config_file args) || truthy (env args) || truthy (params args) in
  let raised message :=
    validate_import_args args =
      Raise (mkFabricCLIError message ERROR_IMPORT_VALIDATION) in
  (raised import_mixed_flows_error <-> direct = true /\ cicd = true)
  /\ (raised import_no_flow_specified_error
      <-> direct = false /\ cicd = false)
  /\ (raised (import_required_param_missing "path" "Direct API"
                "fab import <path> -i <input_path> [--format <format>]")
      <-> direct = true /\ cicd = false /\ truthy (path args) = false)
  /\ (raised (import_required_param_missing "-i/--input" "Direct API"
                "fab import <path> -i <input_path> [--format <format>]")
      <-> cicd = false /\ truthy (path args) = true
          /\ truthy (input args) = false)
  /\ (raised (import_required_param_missing "--config-file" "CICD"
                "fab import --config-file <config_path> --env <env_name> [-P <params>]")
      <-> direct = false /\ cicd = true /\ truthy (config_file args) = false)
  /\ (raised (import_required_param_missing "--env" "CICD"
                "fab import --config-file <config_path> --env <env_name> [-P <params>]")
      <-> direct = false /\ truthy (config_file args) = true
          /\ truthy (env args) = false).
Proof.
  cbv zeta. rewrite validate_import_args_table. cbv zeta.
  destruct (truthy (path args)), (truthy (input args)),
    (truthy (format args)), (truthy (config_file args)),
    (truthy (env args)), (truthy (params args)); cbn;
    repeat match goal with
           | |- _ /\ _ => split
           | |- _ <-> _ => split
           end;
    intro H; decompose [and] H;
    first [discriminate | reflexivity | repeat split].
Qed.

(** A bag with [env] and [params] but no [config_file]. *)
Lemma validate_import_args_error_diagnoses_witness :
  validate_import_args
    (mkNamespace PyNone PyNone PyNone
                 PyNone (PyStr "production") (PyStr "[{}]")) =
    Raise (mkFabricCLIError
             (import_required_param_missing "--config-file" "CICD"
                "fab import --config-file <config_path> --env <env_name> [-P <params>]")
             ERROR_IMPORT_VALIDATION).
Proof.
  apply (proj2 (proj1 (proj2 (proj2 (proj2 (proj2
           (validate_import_args_error_diagnoses
              (mkNamespace PyNone PyNone PyNone
                 PyNone (PyStr "production") (PyStr "[{}]"))))))))).
  repeat split.
Defined.

(** ** Further properties of the flow dispatcher *)

Section DispatcherComposition.

Variable process_nargs : pyval -> pyval.

(** X3.  With the validator as its hook, the dispatcher sends every accepted
    bag to the executor of its flow: the Direct executor for a bag with
    [path] and [input] (on an [Item]; nothing is called on another context),
    the CICD executor, with [config_file] and [env] both set, otherwise.  The
    branch that dispatches nothing is never taken. *)
Theorem validated_dispatch_follows_flow
    (args : Namespace) (context : FabricElement) :
  validate_import_args args = Return args ->
  let args' := set_input args (process_nargs (input args)) in
  (truthy (path args) = true /\ truthy (input args) = true
   /\ run_exec_command process_nargs (Some validate_import_args) args context
      = (Return tt,
         mkWorld args'
           (if isinstance_Item context
            then [import_single_item context args'] else [])))
  \/ (truthy (config_file args) = true /\ truthy (env args) = true
      /\ truthy (path args) = false /\ truthy (input args) = false
      /\ run_exec_command process_nargs (Some validate_import_args)
           args context
         = (Return tt, mkWorld args [import_with_config_file args])).
Proof.
  intros Hvalid. cbv zeta.
  rewrite run_exec_command_table, Hvalid.
  apply validate_import_args_accepts_iff in Hvalid.
  destruct Hvalid as [(Hpath & Hinput & _) | (Hconfig & Henv & Hpath & Hinput & _)].
  - left. rewrite Hpath, Hinput. cbn. auto.
  - right. rewrite Hpath, Hinput, Hconfig. cbn. auto 6.
Qed.

(** X6.  A bag that has neither [path] with [input] nor [config_file] is
    rejected by the validator; the dispatcher without a hook lets it through
    in silence: no error, no executor called, the bag as it was. *)
Theorem unvalidated_dispatch_falls_through
    (args : Namespace) (context : FabricElement) :
  truthy (path args) && truthy (input args) = false ->
  truthy (config_file args) = false ->
  run_exec_command process_nargs None args context
    = (Return tt, mkWorld args [])
  /\ exists e, validate_import_args args = Raise e.
Proof.
  intros Hshape Hconfig. split.
  - rewrite run_exec_command_table, Hshape, Hconfig. reflexivity.
  - rewrite validate_import_args_table. cbv zeta. rewrite Hconfig.
    destruct (truthy (path args)), (truthy (input args));
      try discriminate Hshape;
      destruct (truthy (format args)), (truthy (env args)),
        (truthy (params args)); cbn; eauto.
Qed.

End DispatcherComposition.

(** The Direct bag of the end-to-end examples with its format, on its
    notebook. *)
Lemma validated_dispatch_follows_flow_witness :
  validate_import_args
    (mkNamespace (PyList ["ws1.Workspace/nb1.Notebook"])
                 (PyList ["/path/to/input"]) (PyStr ".ipynb")
                 PyNone PyNone PyNone) =
    Return (mkNamespace (PyList ["ws1.Workspace/nb1.Notebook"])
                        (PyList ["/path/to/input"]) (PyStr ".ipynb")
                        PyNone PyNone PyNone)
  /\ ((truthy (PyList ["ws1.Workspace/nb1.Notebook"]) = true
       /\ truthy (PyList ["/path/to/input"]) = true
       /\ run_exec_command canonical_list (Some validate_import_args)
            (mkNamespace (PyList ["ws1.Workspace/nb1.Notebook"])
                         (PyList ["/path/to/input"]) (PyStr ".ipynb")
                         PyNone PyNone PyNone)
            (Item "nb1.Notebook")
          = (Return tt,
             mkWorld
               (mkNamespace (PyList ["ws1.Workspace/nb1.Notebook"])
                            (PyList ["/path/to/input"]) (PyStr ".ipynb")
                            PyNone PyNone PyNone)
               [import_single_item (Item "nb1.Notebook")
                  (mkNamespace (PyList ["ws1.Workspace/nb1.Notebook"])
                               (PyList ["/path/to/input"]) (PyStr ".ipynb")
                               PyNone PyNone PyNone)]))
      \/ (truthy PyNone = true /\ truthy PyNone = true
          /\ truthy (PyList ["ws1.Workspace/nb1.Notebook"]) = false
          /\ truthy (PyList ["/path/to/input"]) = false
          /\ run_exec_command canonical_list (Some validate_import_args)
               (mkNamespace (PyList ["ws1.Workspace/nb1.Notebook"])
                            (PyList ["/path/to/input"]) (PyStr ".ipynb")
                            PyNone PyNone PyNone)
               (Item "nb1.Notebook")
             = (Return tt,
                mkWorld
                  (mkNamespace (PyList ["ws1.Workspace/nb1.Notebook"])
                               (PyList ["/path/to/input"]) (PyStr ".ipynb")
                               PyNone PyNone PyNone)
                  [import_with_config_file
                     (mkNamespace (PyList ["ws1.Workspace/nb1.Notebook"])
                                  (PyList ["/path/to/input"])
                                  (PyStr ".ipynb")
                                  PyNone PyNone PyNone)]))).
Proof.
  split; [reflexivity |].
  apply (validated_dispatch_follows_flow canonical_list
           (mkNamespace (PyList ["ws1.Workspace/nb1.Notebook"])
                        (PyList ["/path/to/input"]) (PyStr ".ipynb")
                        PyNone PyNone PyNone)
           (Item "nb1.Notebook")).
  reflexivity.
Defined.

(** [path] without [input], dispatched without a hook. *)
Lemma unvalidated_dispatch_falls_through_witness :
  run_exec_command canonical_list None
    (mkNamespace (PyList ["ws1.Workspace/nb1.Notebook"]) PyNone PyNone
                 PyNone (PyStr "production") PyNone)
    (Item "nb1.Notebook")
  = (Return tt,
     mkWorld (mkNamespace (PyList ["ws1.Workspace/nb1.Notebook"]) PyNone
                          PyNone PyNone (PyStr "production") PyNone)
             [])
  /\ exists e,
       validate_import_args
         (mkNamespace (PyList ["ws1.Workspace/nb1.Notebook"]) PyNone PyNone
                      PyNone (PyStr "production") PyNone) = Raise e.
Proof.
  apply (unvalidated_dispatch_falls_through canonical_list
           (mkNamespace (PyList ["ws1.Workspace/nb1.Notebook"]) PyNone PyNone
                        PyNone (PyStr "production") PyNone)
           (Item "nb1.Notebook"));
    reflexivity.
Defined.

(** ** Properties of [validate_positive_int] *)

Lemma horner_pos (d : Decimal.uint) : forall p : positive,
  horner d (N.pos p) = N.pos (Pos.of_uint_acc d p).
Proof.
  induction d; intro p; cbn [horner Pos.of_uint_acc];
    try reflexivity;
    match goal with
    | |- horner _ ?a = N.pos (Pos.of_uint_acc _ ?b) =>
        replace a with (N.pos b) by lia; apply IHd
    end.
Qed.

Lemma horner_zero (d : Decimal.uint) : horner d 0 = N.of_uint d.
Proof.
  unfold N.of_uint.
  induction d; cbn [horner Pos.of_uint]; try reflexivity;
    try (rewrite <- horner_pos; reflexivity).
  exact IHd.
Qed.

Lemma scan_digits_uint (d : Decimal.uint) : forall acc count : N,
  scan_digits (NilEmpty.string_of_uint d) AfterDigit acc count =
    Some (horner d acc, (count + N.of_nat (Decimal.nb_digits d))%N, "").
Proof.
  induction d; intros acc count;
    cbn [NilEmpty.string_of_uint horner Decimal.nb_digits scan_digits];
    try (change (digit_value "0") with (Some 0%N));
    try (change (digit_value "1") with (Some 1%N));
    try (change (digit_value "2") with (Some 2%N));
    try (change (digit_value "3") with (Some 3%N));
    try (change (digit_value "4") with (Some 4%N));
    try (change (digit_value "5") with (Some 5%N));
    try (change (digit_value "6") with (Some 6%N));
    try (change (digit_value "7") with (Some 7%N));
    try (change (digit_value "8") with (Some 8%N));
    try (change (digit_value "9") with (Some 9%N));
    cbv iota beta.
  1: { cbn. do 2 f_equal. f_equal. lia. }
  all: rewrite IHd; do 2 f_equal; f_equal; lia.
Qed.

Lemma length_string_of_uint (d : Decimal.uint) :
  String.length (NilEmpty.string_of_uint d) = Decimal.nb_digits d.
Proof.
  induction d; cbn; congruence.
Qed.

Lemma digit_limit_not_reached (max_str_digits digits : N) :
  max_str_digits = 0%N \/ (digits <= max_str_digits)%N ->
  ((0 <? max_str_digits) && (max_str_digits <? digits))%N = false.
Proof.
  intros [-> | Hle]; [reflexivity |].
  apply andb_false_iff. right. apply N.ltb_ge. exact Hle.
Qed.

Lemma scan_digits_uint_start (d : Decimal.uint) :
  d <> Decimal.Nil ->
  scan_digits (NilEmpty.string_of_uint d) AtStart 0 0 =
    Some (N.of_uint d, N.of_nat (Decimal.nb_digits d), "").
Proof.
  intro Hd. rewrite <- horner_zero.
  destruct d; [contradiction | ..];
    cbn [NilEmpty.string_of_uint scan_digits horner];
    match goal with
    | |- context [digit_value ?c] =>
        let v := eval vm_compute in (digit_value c) in
        change (digit_value c) with v
    end;
    cbv iota beta; rewrite scan_digits_uint;
    cbn [Decimal.nb_digits]; do 2 f_equal; f_equal; lia.
Qed.

Lemma uint_text_has_no_prefix (d : Decimal.uint) :
  d <> Decimal.Nil ->
  split_sign (skip_spaces (NilEmpty.string_of_uint d))
    = (false, NilEmpty.string_of_uint d).
Proof.
  intro Hd. destruct d; [contradiction | ..]; reflexivity.
Qed.

Section IntFacts.

Variable max_str_digits : N.

Lemma py_int_uint (d : Decimal.uint) :
  d <> Decimal.Nil ->
  max_str_digits = 0%N
  \/ (N.of_nat (Decimal.nb_digits d) <= max_str_digits)%N ->
  py_int max_str_digits (NilEmpty.string_of_uint d)
    = Returns (Z.of_N (N.of_uint d))
  /\ py_int max_str_digits (String "-" (NilEmpty.string_of_uint d))
     = Returns (- Z.of_N (N.of_uint d))%Z.
Proof.
  intros Hd Hlimit. unfold py_int.
  change (split_sign (skip_spaces (String "-" (NilEmpty.string_of_uint d))))
    with (true, NilEmpty.string_of_uint d).
  rewrite (uint_text_has_no_prefix d Hd).
  rewrite (scan_digits_uint_start d Hd).
  rewrite (digit_limit_not_reached _ _ Hlimit).
  split; reflexivity.
Qed.

Lemma py_int_decimal (n : Z) :
  within_digit_limit max_str_digits (decimal n) ->
  py_int max_str_digits (decimal n) = Returns n.
Proof.
  unfold within_digit_limit, decimal.
  destruct n as [| p | p]; cbn [Z.to_int NilZero.string_of_int].
  - intro Hlimit. cbn [NilZero.string_of_uint].
    unfold py_int. cbn.
    rewrite (digit_limit_not_reached max_str_digits 1 Hlimit). reflexivity.
  - pose proof (DecimalPos.Unsigned.to_uint_nonnil p) as Hd.
    unfold NilZero.string_of_uint.
    destruct (Pos.to_uint p) as [| | | | | | | | | |] eqn:Hp;
      [contradiction | rewrite <- Hp in * ..];
      intro Hlimit; rewrite length_string_of_uint in Hlimit;
      destruct (py_int_uint (Pos.to_uint p) Hd Hlimit) as [-> _];
      unfold N.of_uint; rewrite DecimalPos.Unsigned.of_to; reflexivity.
  - pose proof (DecimalPos.Unsigned.to_uint_nonnil p) as Hd.
    unfold NilZero.string_of_uint.
    destruct (Pos.to_uint p) as [| | | | | | | | | |] eqn:Hp;
      [contradiction | rewrite <- Hp in * ..];
      intro Hlimit; cbn [String.length] in Hlimit;
      rewrite length_string_of_uint in Hlimit;
      assert (Hdigits : max_str_digits = 0%N
                \/ (N.of_nat (Decimal.nb_digits (Pos.to_uint p))
                    <= max_str_digits)%N) by lia;
      destruct (py_int_uint (Pos.to_uint p) Hd Hdigits) as [_ ->];
      unfold N.of_uint; rewrite DecimalPos.Unsigned.of_to; reflexivity.
Qed.

(** X8.  Round trip: the decimal text of a positive integer is accepted and
    gives the integer back, as long as the text is within the interpreter's
    digit limit. *)
Theorem validate_positive_int_round_trip (n : Z) :
  (0 < n)%Z ->
  within_digit_limit max_str_digits (decimal n) ->
  validate_positive_int max_str_digits (decimal n) = Returns n.
Proof.
  intros Hpos Hlimit. unfold validate_positive_int.
  rewrite (py_int_decimal n Hlimit). cbn.
  destruct (Z.leb_spec n 0); [lia | reflexivity].
Qed.

Lemma py_int_decimal_non_positive (n : Z) :
  (n <= 0)%Z ->
  digits_within_limit max_str_digits n ->
  py_int max_str_digits (decimal n) = Returns n.
Proof.
  unfold digits_within_limit, decimal.
  destruct n as [| p | p]; intro Hsign;
    cbn [Z.abs Z.to_int NilZero.string_of_int]; [| lia |].
  - intro Hlimit. cbn [NilZero.string_of_uint].
    unfold py_int. cbn.
    rewrite (digit_limit_not_reached max_str_digits 1 Hlimit). reflexivity.
  - pose proof (DecimalPos.Unsigned.to_uint_nonnil p) as Hd.
    unfold NilZero.string_of_uint.
    destruct (Pos.to_uint p) as [| | | | | | | | | |] eqn:Hp;
      [contradiction | rewrite <- Hp in * ..];
      intro Hlimit; rewrite length_string_of_uint in Hlimit;
      destruct (py_int_uint (Pos.to_uint p) Hd Hlimit) as [_ ->];
      unfold N.of_uint; rewrite DecimalPos.Unsigned.of_to; reflexivity.
Qed.

(** X9.  The decimal text of zero or of a negative integer, with a number
    of digits that [int] converts, is rejected with the message that quotes
    it and says it must be a positive integer. *)
Theorem validate_positive_int_rejects_non_positive (n : Z) :
  (n <= 0)%Z ->
  digits_within_limit max_str_digits n ->
  validate_positive_int max_str_digits (decimal n) =
    Raises (ArgumentTypeError
              ("'" ++ decimal n ++ "' must be a positive integer")).
Proof.
  intros Hneg Hlimit. unfold validate_positive_int.
  rewrite (py_int_decimal_non_positive n Hneg Hlimit). cbn.
  destruct (Z.leb_spec n 0); [reflexivity | lia].
Qed.

(** X14.  The digit limit of the interpreter shows through: the decimal
    text of a positive integer with more digits than the limit is reported
    as not a valid integer. *)
Theorem validate_positive_int_beyond_digit_limit (n : Z) :
  (0 < n)%Z ->
  (0 < max_str_digits)%N ->
  (max_str_digits < N.of_nat (String.length (decimal n)))%N ->
  validate_positive_int max_str_digits (decimal n) =
    Raises (ArgumentTypeError
              ("'" ++ decimal n ++ "' is not a valid integer")).
Proof.
  intros Hpos Hlimit Hlong.
  destruct n as [| p | p]; try discriminate Hpos.
  unfold decimal in *. cbn [Z.to_int NilZero.string_of_int] in *.
  pose proof (DecimalPos.Unsigned.to_uint_nonnil p) as Hd.
  unfold NilZero.string_of_uint in *.
  assert (Htext :
            match Pos.to_uint p with
            | Decimal.Nil => "0"
            | _ => NilEmpty.string_of_uint (Pos.to_uint p)
            end = NilEmpty.string_of_uint (Pos.to_uint p))
    by (destruct (Pos.to_uint p); [contradiction | reflexivity ..]).
  rewrite Htext in *. rewrite length_string_of_uint in Hlong.
  unfold validate_positive_int, py_int.
  rewrite (uint_text_has_no_prefix _ Hd), (scan_digits_uint_start _ Hd).
  apply N.ltb_lt in Hlimit, Hlong. rewrite Hlimit, Hlong. reflexivity.
Qed.

End IntFacts.

(** *** The parse, piece by piece *)

Lemma space_is_no_digit (c : ascii) :
  is_space c = true -> digit_value c = None /\ (c =? "_")%char = false
  /\ (c =? "+")%char = false /\ (c =? "-")%char = false.
Proof.
  unfold is_space, digit_value. intro Hc.
  rewrite <- (ascii_N_embedding c).
  assert (Hcode : (9 <= N_of_ascii c <= 13 \/ N_of_ascii c = 32)%N).
  { apply orb_true_iff in Hc. destruct Hc as [Hc | Hc].
    - apply andb_true_iff in Hc. destruct Hc as [Hlo Hhi].
      apply N.leb_le in Hlo, Hhi. lia.
    - apply N.eqb_eq in Hc. lia. }
  rewrite (ascii_N_embedding c).
  destruct ((48 <=? N_of_ascii c) && (N_of_ascii c <=? 57))%N eqn:Hdigit.
  { apply andb_true_iff in Hdigit. destruct Hdigit as [Hlo Hhi].
    apply N.leb_le in Hlo, Hhi. lia. }
  repeat split;
    apply Ascii.eqb_neq; intro Heq; subst c; cbn in Hcode; lia.
Qed.

Lemma skip_spaces_all_spaces (s : string) :
  all_spaces s = true -> skip_spaces s = "".
Proof.
  induction s as [| c s IH]; [reflexivity |]; cbn.
  intro Hs. apply andb_true_iff in Hs. destruct Hs as [-> Hs]. auto.
Qed.

Lemma skip_spaces_empty (s : string) :
  skip_spaces s = "" -> all_spaces s = true.
Proof.
  induction s as [| c s IH]; [reflexivity |]; cbn.
  destruct (is_space c); [exact IH | discriminate].
Qed.

Lemma skip_spaces_app_left (l s : string) :
  all_spaces l = true -> skip_spaces (l ++ s) = skip_spaces s.
Proof.
  induction l as [| c l IH]; [reflexivity |]; cbn.
  intro Hl. apply andb_true_iff in Hl. destruct Hl as [-> Hl]. auto.
Qed.

Lemma skip_spaces_app_right (s r : string) :
  skip_spaces s <> "" -> skip_spaces (s ++ r) = skip_spaces s ++ r.
Proof.
  induction s as [| c s IH]; [intro H; now contradiction H |]; cbn.
  destruct (is_space c); [exact IH | reflexivity].
Qed.

Lemma all_spaces_app (s r : string) :
  all_spaces s = true -> all_spaces r = true -> all_spaces (s ++ r) = true.
Proof.
  induction s as [| c s IH]; [auto |]; cbn.
  intros Hs Hr. apply andb_true_iff in Hs. destruct Hs as [-> Hs]. auto.
Qed.

Lemma split_sign_app (s r : string) :
  s <> "" ->
  split_sign (s ++ r) = (fst (split_sign s), snd (split_sign s) ++ r).
Proof.
  destruct s as [| c s]; [intro H; now contradiction H |]; intros _; cbn.
  destruct (c =? "+")%char; [reflexivity |].
  destruct (c =? "-")%char; reflexivity.
Qed.

Lemma scan_digits_app (s r : string) :
  all_spaces r = true ->
  forall prev acc count magnitude digits rest,
    scan_digits s prev acc count = Some (magnitude, digits, rest) ->
    scan_digits (s ++ r) prev acc count = Some (magnitude, digits, rest ++ r).
Proof.
  intro Hr.
  induction s as [| c s IH]; intros prev acc count magnitude digits rest;
    cbn [scan_digits append].
  - destruct prev; cbn; try discriminate.
    intro Hstop. inversion Hstop; subst. clear Hstop.
    destruct r as [| c r]; [reflexivity |]. cbn in Hr |- *.
    apply andb_true_iff in Hr. destruct Hr as [Hc _].
    destruct (space_is_no_digit c Hc) as (-> & -> & _). reflexivity.
  - destruct (digit_value c); [apply IH |].
    destruct (c =? "_")%char.
    + destruct prev; try discriminate. apply IH.
    + destruct prev; cbn; try discriminate.
      intro Hstop. inversion Hstop; subst. reflexivity.
Qed.

Section ParseFacts.

Variable max_str_digits : N.

Lemma py_int_blank (value : string) :
  all_spaces value = true -> py_int max_str_digits value = Raises ValueError.
Proof.
  intro Hblank. unfold py_int.
  rewrite (skip_spaces_all_spaces value Hblank). reflexivity.
Qed.

Lemma py_int_padded (l r value : string) (n : Z) :
  all_spaces l = true -> all_spaces r = true ->
  py_int max_str_digits value = Returns n ->
  py_int max_str_digits (l ++ value ++ r) = Returns n.
Proof.
  intros Hl Hr. unfold py_int.
  rewrite (skip_spaces_app_left l _ Hl).
  destruct (skip_spaces value) as [| c body] eqn:Hvalue;
    [cbn; discriminate |].
  rewrite skip_spaces_app_right by (rewrite Hvalue; discriminate).
  rewrite Hvalue, split_sign_app by discriminate.
  destruct (split_sign (String c body)) as [negative digits_text]; cbn [fst snd].
  destruct (scan_digits digits_text AtStart 0 0)
    as [[[magnitude digits] rest] |] eqn:Hscan; [| discriminate].
  rewrite (scan_digits_app _ r Hr _ _ _ _ _ _ Hscan).
  destruct ((0 <? max_str_digits) && (max_str_digits <? digits))%N;
    [discriminate |].
  destruct (skip_spaces rest) eqn:Hrest; [| discriminate].
  apply skip_spaces_empty in Hrest.
  rewrite (skip_spaces_all_spaces _ (all_spaces_app _ _ Hrest Hr)).
  exact (fun H => H).
Qed.

(** X12.  Spaces around an accepted text change nothing: the padded text is
    accepted with the same integer. *)
Theorem validate_positive_int_ignores_padding (l r value : string) (n : Z) :
  all_spaces l = true -> all_spaces r = true ->
  validate_positive_int max_str_digits value = Returns n ->
  validate_positive_int max_str_digits (l ++ value ++ r) = Returns n.
Proof.
  intros Hl Hr. unfold validate_positive_int.
  destruct (py_int max_str_digits value) as [m | [| msg]] eqn:Hint;
    cbn; try discriminate.
  rewrite (py_int_padded l r value m Hl Hr Hint). cbn.
  destruct (m <=? 0)%Z; [discriminate | exact (fun H => H)].
Qed.

(** X10.  The empty text and every text of spaces only is rejected as not a
    valid integer, quoted as it was given. *)
Theorem validate_positive_int_rejects_blank (value : string) :
  all_spaces value = true ->
  validate_positive_int max_str_digits value =
    Raises (ArgumentTypeError ("'" ++ value ++ "' is not a valid integer")).
Proof.
  intro Hblank. unfold validate_positive_int.
  rewrite (py_int_blank value Hblank). reflexivity.
Qed.

Lemma py_int_raises_ValueError_only (value : string) (e : exn) :
  py_int max_str_digits value = Raises e -> e = ValueError.
Proof.
  unfold py_int.
  destruct (split_sign (skip_spaces value)) as [negative body].
  destruct (scan_digits body AtStart 0 0) as [[[magnitude digits] rest] |].
  - destruct ((0 <? max_str_digits) && (max_str_digits <? digits))%N.
    + intro H. now inversion H.
    + destruct (skip_spaces rest); intro H; now inversion H.
  - intro H. now inversion H.
Qed.

(** X7.  Whatever the text, [validate_positive_int] returns an integer that
    is at least 1, or raises an [ArgumentTypeError] whose message quotes the
    text as given and is one of the two sentences; no [ValueError] of [int]
    escapes. *)
Theorem validate_positive_int_contract (value : string) :
  match validate_positive_int max_str_digits value with
  | Returns n => (0 < n)%Z
  | Raises (ArgumentTypeError msg) =>
      msg = "'" ++ value ++ "' must be a positive integer"
      \/ msg = "'" ++ value ++ "' is not a valid integer"
  | Raises ValueError => False
  end.
Proof.
  unfold validate_positive_int.
  destruct (py_int max_str_digits value) as [n | e] eqn:Hint.
  - cbn. destruct (Z.leb_spec n 0) as [Hle | Hlt]; cbn; [now left | exact Hlt].
  - rewrite (py_int_raises_ValueError_only value e Hint). cbn. now right.
Qed.

Lemma py_int_minus (l s : string) (n : Z) :
  all_spaces l = true ->
  py_int max_str_digits (l ++ String "-" s) = Returns n -> (n <= 0)%Z.
Proof.
  intro Hl. unfold py_int.
  rewrite (skip_spaces_app_left l _ Hl).
  change (split_sign (skip_spaces (String "-" s))) with (true, s).
  cbv beta iota.
  destruct (scan_digits s AtStart 0 0) as [[[magnitude digits] rest] |];
    [| discriminate].
  destruct ((0 <? max_str_digits) && (max_str_digits <? digits))%N;
    [discriminate |].
  destruct (skip_spaces rest); [| discriminate].
  intro H. inversion H. lia.
Qed.

(** X13.  A text that starts, after spaces, with a minus sign is never
    accepted, whatever follows the sign. *)
Theorem validate_positive_int_never_accepts_minus (l s : string) :
  all_spaces l = true ->
  forall n, validate_positive_int max_str_digits (l ++ String "-" s)
            <> Returns n.
Proof.
  intros Hl n. unfold validate_positive_int.
  destruct (py_int max_str_digits (l ++ String "-" s)) as [m | e] eqn:Hint.
  - apply (py_int_minus l s m Hl) in Hint. cbn.
    destruct (Z.leb_spec m 0); [discriminate | lia].
  - rewrite (py_int_raises_ValueError_only _ e Hint). cbn. discriminate.
Qed.

(** *** Characters that [int] does not read *)

Lemma skip_spaces_keeps (c : ascii) (s : string) :
  is_space c = false ->
  In c (list_ascii_of_string s) ->
  In c (list_ascii_of_string (skip_spaces s)).
Proof.
  intro Hc. induction s as [| a s IH]; [auto |]; cbn.
  destruct (is_space a) eqn:Ha; [| auto].
  intros [-> | Hin]; [congruence | auto].
Qed.

Lemma split_sign_keeps (c : ascii) (s : string) :
  (c =? "+")%char = false -> (c =? "-")%char = false ->
  In c (list_ascii_of_string s) ->
  In c (list_ascii_of_string (snd (split_sign s))).
Proof.
  intros Hplus Hminus. destruct s as [| a s]; [auto |]; cbn.
  destruct (a =? "+")%char eqn:Ha.
  { apply Ascii.eqb_eq in Ha. subst a. cbn.
    intros [<- | Hin]; [discriminate Hplus | exact Hin]. }
  destruct (a =? "-")%char eqn:Hb.
  { apply Ascii.eqb_eq in Hb. subst a. cbn.
    intros [<- | Hin]; [discriminate Hminus | exact Hin]. }
  auto.
Qed.

Lemma scan_digits_keeps (c : ascii) (s : string) :
  digit_value c = None -> (c =? "_")%char = false ->
  In c (list_ascii_of_string s) ->
  forall prev acc count magnitude digits rest,
    scan_digits s prev acc count = Some (magnitude, digits, rest) ->
    In c (list_ascii_of_string rest).
Proof.
  intros Hdigit Hunderscore.
  induction s as [| a s IH]; [intros [] |].
  intros Hin prev acc count magnitude digits rest. cbn [scan_digits].
  destruct (digit_value a) eqn:Ha.
  { destruct Hin as [-> | Hin]; [congruence | apply IH, Hin]. }
  destruct (a =? "_")%char eqn:Hu.
  { destruct Hin as [-> | Hin]; [congruence |].
    destruct prev; try discriminate. apply IH, Hin. }
  destruct prev; cbn; try discriminate.
  intro Hstop. inversion Hstop; subst. exact Hin.
Qed.

(** X11.  A text that contains, anywhere, an ASCII character other than a
    digit, a sign, an underscore or a space is rejected as not a valid
    integer. *)
Theorem validate_positive_int_rejects_foreign_character
    (value : string) (c : ascii) :
  In c (list_ascii_of_string value) ->
  (N_of_ascii c < 128)%N ->
  int_char c = false ->
  validate_positive_int max_str_digits value =
    Raises (ArgumentTypeError ("'" ++ value ++ "' is not a valid integer")).
Proof.
  intros Hin _ Hforeign. unfold int_char in Hforeign.
  apply orb_false_iff in Hforeign. destruct Hforeign as [Hforeign Hminus].
  apply orb_false_iff in Hforeign. destruct Hforeign as [Hforeign Hplus].
  apply orb_false_iff in Hforeign. destruct Hforeign as [Hforeign Hunder].
  apply orb_false_iff in Hforeign. destruct Hforeign as [Hspace Hdigit'].
  assert (Hdigit : digit_value c = None)
    by (destruct (digit_value c); [discriminate | reflexivity]).
  assert (Hint : py_int max_str_digits value = Raises ValueError).
  { unfold py_int.
    pose proof (split_sign_keeps c _ Hplus Hminus
                  (skip_spaces_keeps c value Hspace Hin)) as Hbody.
    destruct (split_sign (skip_spaces value)) as [negative body].
    cbn [snd] in Hbody.
    destruct (scan_digits body AtStart 0 0)
      as [[[magnitude digits] rest] |] eqn:Hscan; [| reflexivity].
    destruct ((0 <? max_str_digits) && (max_str_digits <? digits))%N;
      [reflexivity |].
    pose proof (skip_spaces_keeps c rest Hspace
                  (scan_digits_keeps c body Hdigit Hunder Hbody
                     _ _ _ _ _ _ Hscan)) as Hrest.
    destruct (skip_spaces rest); [destruct Hrest | reflexivity]. }
  unfold validate_positive_int. rewrite Hint. reflexivity.
Qed.

End ParseFacts.


(** *** Runs under the default limit of 4300 digits *)

Lemma validate_positive_int_round_trip_witness :
  validate_positive_int 4300 (decimal 999999) = Returns 999999%Z.
Proof.
  apply (validate_positive_int_round_trip 4300 999999).
  - reflexivity.
  - right. vm_compute. discriminate.
Defined.

(** A negative number of 640 digits under the limit of 640: the sign is not
    counted. *)
Lemma validate_positive_int_rejects_non_positive_witness :
  validate_positive_int 640 (decimal (- 10 ^ 639)) =
    Raises (ArgumentTypeError
              ("'" ++ decimal (- 10 ^ 639) ++ "' must be a positive integer")).
Proof.
  apply (validate_positive_int_rejects_non_positive 640 (- 10 ^ 639)).
  - vm_compute. discriminate.
  - right. vm_compute. discriminate.
Defined.

(** A number of 641 digits under the smallest limit an interpreter takes. *)
Lemma validate_positive_int_beyond_digit_limit_witness :
  validate_positive_int 640 (decimal (10 ^ 640)) =
    Raises (ArgumentTypeError
              ("'" ++ decimal (10 ^ 640) ++ "' is not a valid integer")).
Proof.
  apply (validate_positive_int_beyond_digit_limit 640 (10 ^ 640)).
  - vm_compute. reflexivity.
  - reflexivity.
  - vm_compute. reflexivity.
Defined.

Lemma validate_positive_int_ignores_padding_witness :
  validate_positive_int 4300 (" " ++ "10" ++ String "010" "") = Returns 10%Z.
Proof.
  apply (validate_positive_int_ignores_padding 4300
           " " (String "010" "") "10" 10);
    reflexivity.
Defined.

Lemma validate_positive_int_rejects_blank_witness :
  validate_positive_int 4300 " " =
    Raises (ArgumentTypeError ("'" ++ " " ++ "' is not a valid integer")).
Proof.
  apply (validate_positive_int_rejects_blank 4300 " "). reflexivity.
Defined.

Lemma validate_positive_int_never_accepts_minus_witness :
  validate_positive_int 4300 ("" ++ String "-" "1") <> Returns 1%Z.
Proof.
  apply (validate_positive_int_never_accepts_minus 4300 "" "1").
  reflexivity.
Defined.

Lemma validate_positive_int_rejects_foreign_character_witness :
  validate_positive_int 4300 "12.5" =
    Raises (ArgumentTypeError ("'" ++ "12.5" ++ "' is not a valid integer")).
Proof.
  apply (validate_positive_int_rejects_foreign_character 4300 "12.5" ".").
  - cbn. auto.
  - reflexivity.
  - reflexivity.
Defined.

(** ** The dispatcher with hooks and executors that act on [args] *)

Section OpenDispatcher.

Variable process_nargs : pyval -> pyval.
Variable executor : Call -> act unit.

(** One call of [stateful.exec_command]: the hook first, then at most one
    executor on the bag as the hook left it. *)
Lemma stateful_run_exec_command_table (validate_args : option (act Namespace))
    (args : Namespace) (context : FabricElement) :
  stateful.run_exec_command process_nargs executor validate_args args context
  = match hook_run validate_args args with
    | (Raise e, bag) => (Raise e, mkWorld bag [])
    | (Return _, bag) =>
        if truthy (path bag) && truthy (input bag) then
          let bag' := set_input bag (process_nargs (input bag)) in
          if isinstance_Item context then
            let c := import_single_item context bag' in
            (fst (executor c bag'), mkWorld (snd (executor c bag')) [c])
          else (Return tt, mkWorld bag' [])
        else if truthy (config_file bag) then
          let c := import_with_config_file bag in
          (fst (executor c bag), mkWorld (snd (executor c bag)) [c])
        else (Return tt, mkWorld bag [])
    end.
Proof.
  assert (Hdispatch : forall bag : Namespace,
    (args0 <- the_args ;;
     if truthy (path args0 'and' input args0)%py then
       assign_input (process_nargs (input args0)) ;;
       if isinstance_Item context then
         args1 <- the_args ;;
         stateful.call executor (import_single_item context args1)
       else ret tt
     else if truthy (config_file args0) then
       stateful.call executor (import_with_config_file args0)
     else ret tt) (mkWorld bag [])
    = (if truthy (path bag) && truthy (input bag) then
         let bag' := set_input bag (process_nargs (input bag)) in
         if isinstance_Item context then
           let c := import_single_item context bag' in
           (fst (executor c bag'), mkWorld (snd (executor c bag')) [c])
         else (Return tt, mkWorld bag' [])
       else if truthy (config_file bag) then
         let c := import_with_config_file bag in
         (fst (executor c bag), mkWorld (snd (executor c bag)) [c])
       else (Return tt, mkWorld bag []))).
  { intro bag. unfold stateful.call, perform, invoke. cbn.
    rewrite truthy_py_and.
    destruct (truthy (path bag) && truthy (input bag)); cbn.
    - destruct (isinstance_Item context); cbn; [| reflexivity].
      destruct (executor _ _) as [[u | e] bag']; reflexivity.
    - destruct (truthy (config_file bag)); cbn; [| reflexivity].
      destruct (executor _ _) as [[u | e] bag']; reflexivity. }
  unfold stateful.run_exec_command, stateful.exec_command, hook_run.
  destruct validate_args as [validate |].
  - cbn [bind cmd_monad act_monad ret]. unfold perform at 1. cbn [ns calls].
    destruct (validate args) as [[r | e] bag]; [| reflexivity].
    apply Hdispatch.
  - cbn [bind cmd_monad ret]. apply Hdispatch.
Qed.


(** X5.  Whatever the hook and the executors do, one call of [exec_command]
    calls at most one executor, decided on the bag as the hook leaves it: the
    Direct executor only on an [Item], for a bag with [path] and [input], and
    with [input] already normalised; the CICD executor only for a bag with
    [config_file] that lacks [path] or [input], so that a bag of both shapes
    never reaches it. *)
Theorem dispatch_calls_at_most_one_executor
    (validate_args : option (act Namespace)) (args : Namespace)
    (context : FabricElement) :
  let world :=
    snd (stateful.run_exec_command process_nargs executor validate_args
           args context) in
  let bag := snd (hook_run validate_args args) in
  length (calls world) <= 1
  /\ (forall c a,
        In (import_single_item c a) (calls world) ->
        c = context /\ isinstance_Item context = true
        /\ truthy (path bag) = true /\ truthy (input bag) = true
        /\ a = set_input bag (process_nargs (input bag)))
  /\ (forall a,
        In (import_with_config_file a) (calls world) ->
        a = bag
        /\ truthy (config_file bag) = true
        /\ truthy (path bag) && truthy (input bag) = false).
Proof.
  cbv zeta. rewrite stateful_run_exec_command_table.
  destruct (hook_run validate_args args) as [[u | e] bag]; cbn [snd].
  - destruct (truthy (path bag)) eqn:Hpath,
      (truthy (input bag)) eqn:Hinput; cbn [andb].
    1: destruct (isinstance_Item context) eqn:Hctx.
    all: try destruct (truthy (config_file bag)) eqn:Hconfig.
    all: cbv zeta; cbn [snd calls length In];
      (split; [repeat constructor | split]);
      [ intros c a Hin | intros a Hin ];
      repeat match goal with
             | H : _ \/ _ |- _ => destruct H
             | H : False |- _ => destruct H
             | H : import_single_item _ _ = _ |- _ =>
                 inversion H; subst; clear H
             | H : import_with_config_file _ = _ |- _ =>
                 inversion H; subst; clear H
             end;
      auto 7.
  - cbn. repeat split; auto; intros; contradiction.
Qed.

(** [fab_fs_import.exec_command] is this dispatcher with a hook that only
    reads and executors that return at once. *)
Lemma run_exec_command_is_an_instance (validate_args : option validator)
    (args : Namespace) (context : FabricElement) :
  run_exec_command process_nargs validate_args args context
  = stateful.run_exec_command process_nargs returns_at_once
      (option_map reads_only validate_args) args context.
Proof.
  rewrite run_exec_command_table.
  unfold stateful.run_exec_command, stateful.exec_command, stateful.call,
    perform, invoke, returns_at_once, reads_only.
  destruct validate_args as [validate |]; cbn.
  - destruct (validate args) as [r | e]; cbn; [| reflexivity].
    rewrite truthy_py_and.
    destruct (truthy (path args) && truthy (input args)); cbn.
    + destruct (isinstance_Item context); reflexivity.
    + destruct (truthy (config_file args)); reflexivity.
  - rewrite truthy_py_and.
    destruct (truthy (path args) && truthy (input args)); cbn.
    + destruct (isinstance_Item context); reflexivity.
    + destruct (truthy (config_file args)); reflexivity.
Qed.

End OpenDispatcher.


(** A bag of both shapes dispatched without a hook: one call, to the Direct
    executor. *)
Lemma dispatch_calls_at_most_one_executor_witness :
  length
    (calls (snd (stateful.run_exec_command canonical_list returns_at_once
                   None
                   (mkNamespace (PyList ["ws1.Workspace/nb1.Notebook"])
                                (PyList ["/path/to/input"]) PyNone
                                (PyStr "/cfg.yml") (PyStr "production")
                                PyNone)
                   (Item "nb1.Notebook")))) <= 1.
Proof.
  apply (proj1 (dispatch_calls_at_most_one_executor
                  canonical_list returns_at_once None
                  (mkNamespace (PyList ["ws1.Workspace/nb1.Notebook"])
                     (PyList ["/path/to/input"]) PyNone
                     (PyStr "/cfg.yml") (PyStr "production") PyNone)
                  (Item "nb1.Notebook"))).
Defined.
